(** * react-native-scrollable-bottom-sheet: the interaction logic of [BottomSheet]

    A shallow embedding of [src/index.tsx]: the component's React state
    ([isOpen]), its reanimated shared value ([offset]), the three closure
    variables of the render body ([canClose], [startedClosing], [startY]) and
    the handlers that mutate them, written with explicit state passing.

    JavaScript numbers are modelled as rationals [Q]: arithmetic is exact and
    there is no NaN or infinity.  The handlers only add, negate and compare
    pixel quantities, so every branch of the source is kept as written. *)

From Stdlib Require Import QArith Qminmax Bool List Lqa.
Import ListNotations.
Open Scope Q_scope.

(** ** JavaScript operators used by the component *)

(** [a ?? b] *)
Definition nullish {A : Type} (a : option A) (b : A) : A :=
  match a with
  | Some v => v
  | None => b
  end.

Notation "a ?? b" := (nullish a b) (at level 45, left associativity).

(** [x <= y], [x >= y], [x < y], [x > y] and [x === y] on numbers *)
Definition leq (x y : Q) : bool := Qle_bool x y.
Definition geq (x y : Q) : bool := Qle_bool y x.
Definition lt (x y : Q) : bool := negb (Qle_bool y x).
Definition gt (x y : Q) : bool := negb (Qle_bool x y).
Definition strictEq (x y : Q) : bool := Qeq_bool x y.

(** [o !== undefined] *)
Definition defined {A : Type} (o : option A) : bool :=
  match o with
  | Some _ => true
  | None => false
  end.

(** ** Data model *)

(** [BottomSheetProps], restricted to the props read by the interaction
    logic.  An optional prop that is not supplied is [None].  The callback
    [onVisibilityChange] is a function of the host application: the model
    records that it was supplied and logs every invocation. *)
Record BottomSheetProps : Type := {
  visible : bool;
  onVisibilityChange : option unit;
  swipeDownThreshold : option Q;
  interactiveMaxHeight : option Q;
  customSheetMass : option Q;
  customSheetDamping : option Q;
  useEnteringAndExitingAnimations : option bool
}.

(** The second argument of [withSpring] *)
Record SpringConfig : Type := {
  damping : option Q;
  mass : option Q
}.

(** The completion callback of [withTiming] in [handlePanGestureEnd]:
    [() => { runOnJS(closeSheet)(false) }], where [closeSheet] is the callback
    of the render that created the animation and so captures its props. *)
Inductive Callback : Type :=
  | runOnJS_closeSheet (captured : BottomSheetProps) (updateOnChange : bool).

(** What can be assigned to [offset.value] besides a plain number *)
Inductive Animation : Type :=
  | withSpring (toValue : Q) (config : SpringConfig)
  | withTiming (toValue : Q) (callback : option Callback).

Definition toValue_of (a : Animation) : Q :=
  match a with
  | withSpring v _ => v
  | withTiming v _ => v
  end.

Definition callback_of (a : Animation) : option Callback :=
  match a with
  | withSpring _ _ => None
  | withTiming _ c => c
  end.

(** A reanimated shared value: reading [offset.value] gives [value]; an
    assigned animation is [running] until the runtime completes it. *)
Record SharedValue : Type := {
  value : Q;
  running : option Animation
}.

(** [State] of react-native-gesture-handler *)
Inductive GestureState : Type :=
  | UNDETERMINED | FAILED | BEGAN | CANCELLED | ACTIVE | END.

(** The [springify()] layout animation of the sheet's [entering] and
    [exiting] props *)
Record Springify : Type := {
  springMass : Q;
  springDamping : Q
}.

(** One mounted [BottomSheet].  [scrollY] is the content offset of the inner
    [ScrollView], [None] while the subtree is not rendered
    ([scrollViewRef.current] is then null).  [calls] logs the arguments of
    the invocations of [props.onVisibilityChange], oldest first. *)
Record Sheet : Type := {
  props : BottomSheetProps;
  isOpen : bool;
  offset : SharedValue;
  canClose : bool;
  startedClosing : bool;
  startY : Q;
  scrollY : option Q;
  calls : list bool
}.

Definition with_props (p : BottomSheetProps) (s : Sheet) : Sheet :=
  {| props := p; isOpen := isOpen s; offset := offset s;
     canClose := canClose s; startedClosing := startedClosing s;
     startY := startY s; scrollY := scrollY s; calls := calls s |}.

Definition setOpen (b : bool) (s : Sheet) : Sheet :=
  {| props := props s; isOpen := b; offset := offset s;
     canClose := canClose s; startedClosing := startedClosing s;
     startY := startY s; scrollY := scrollY s; calls := calls s |}.

Definition with_offset (o : SharedValue) (s : Sheet) : Sheet :=
  {| props := props s; isOpen := isOpen s; offset := o;
     canClose := canClose s; startedClosing := startedClosing s;
     startY := startY s; scrollY := scrollY s; calls := calls s |}.

Definition with_canClose (b : bool) (s : Sheet) : Sheet :=
  {| props := props s; isOpen := isOpen s; offset := offset s;
     canClose := b; startedClosing := startedClosing s;
     startY := startY s; scrollY := scrollY s; calls := calls s |}.

Definition with_startedClosing (b : bool) (s : Sheet) : Sheet :=
  {| props := props s; isOpen := isOpen s; offset := offset s;
     canClose := canClose s; startedClosing := b;
     startY := startY s; scrollY := scrollY s; calls := calls s |}.

Definition with_startY (y : Q) (s : Sheet) : Sheet :=
  {| props := props s; isOpen := isOpen s; offset := offset s;
     canClose := canClose s; startedClosing := startedClosing s;
     startY := y; scrollY := scrollY s; calls := calls s |}.

Definition with_scrollY (y : option Q) (s : Sheet) : Sheet :=
  {| props := props s; isOpen := isOpen s; offset := offset s;
     canClose := canClose s; startedClosing := startedClosing s;
     startY := startY s; scrollY := y; calls := calls s |}.

Definition with_calls (l : list bool) (s : Sheet) : Sheet :=
  {| props := props s; isOpen := isOpen s; offset := offset s;
     canClose := canClose s; startedClosing := startedClosing s;
     startY := startY s; scrollY := scrollY s; calls := l |}.

(** [offset.value = n]: the value is set and a running animation is
    cancelled. *)
Definition assign_number (n : Q) (s : Sheet) : Sheet :=
  with_offset {| value := n; running := None |} s.

(** [offset.value = withSpring(...)] or [withTiming(...)]: the animation
    starts from the current value and replaces a running one.  The callback
    of a replaced animation is dropped: only completion runs it. *)
Definition assign_animation (a : Animation) (s : Sheet) : Sheet :=
  with_offset {| value := value (offset s); running := Some a |} s.

(** [props.useEnteringAndExitingAnimations === false]: the always-mounted
    mode.  Not supplied or [true] is the mounted-on-demand mode. *)
Definition alwaysMounted (p : BottomSheetProps) : bool :=
  match useEnteringAndExitingAnimations p with
  | Some false => true
  | _ => false
  end.

(** [props.onVisibilityChange(v)] *)
Definition call_onVisibilityChange (v : bool) (s : Sheet) : Sheet :=
  with_calls (calls s ++ [v]) s.

(** [scrollViewRef.current?.scrollTo({ y: 0, animated: false })] *)
Definition scrollTo_top (s : Sheet) : Sheet :=
  match scrollY s with
  | Some _ => with_scrollY (Some 0) s
  | None => s
  end.

(** ** Example configurations *)

(** [<BottomSheet visible onVisibilityChange={...} />] *)
Definition default_visible : BottomSheetProps :=
  {| visible := true; onVisibilityChange := Some tt;
     swipeDownThreshold := None; interactiveMaxHeight := None;
     customSheetMass := None; customSheetDamping := None;
     useEnteringAndExitingAnimations := None |}.

(** [<BottomSheet visible useEnteringAndExitingAnimations={false} ... />] *)
Definition legacy_visible : BottomSheetProps :=
  {| visible := true; onVisibilityChange := Some tt;
     swipeDownThreshold := None; interactiveMaxHeight := None;
     customSheetMass := None; customSheetDamping := None;
     useEnteringAndExitingAnimations := Some false |}.

(** [<BottomSheet visible={false} useEnteringAndExitingAnimations={false} ... />] *)
Definition legacy_hidden : BottomSheetProps :=
  {| visible := false; onVisibilityChange := Some tt;
     swipeDownThreshold := None; interactiveMaxHeight := None;
     customSheetMass := None; customSheetDamping := None;
     useEnteringAndExitingAnimations := Some false |}.

(** [<BottomSheet visible={false} onVisibilityChange={...} />] *)
Definition default_hidden : BottomSheetProps :=
  {| visible := false; onVisibilityChange := Some tt;
     swipeDownThreshold := None; interactiveMaxHeight := None;
     customSheetMass := None; customSheetDamping := None;
     useEnteringAndExitingAnimations := None |}.

(** [<BottomSheet visible onVisibilityChange={undefined} />] *)
Definition visible_without_callback : BottomSheetProps :=
  {| visible := true; onVisibilityChange := None;
     swipeDownThreshold := None; interactiveMaxHeight := None;
     customSheetMass := None; customSheetDamping := None;
     useEnteringAndExitingAnimations := None |}.

Section BottomSheet.

(** [Dimensions.get('window').height] *)
Variable windowHeight : Q.

(** [const height = props.interactiveMaxHeight ?? Dimensions.get('window').height] *)
Definition height (p : BottomSheetProps) : Q :=
  interactiveMaxHeight p ?? windowHeight.

(** ** The callbacks of one render *)

Definition closeSheet (p : BottomSheetProps) (updateOnChange : bool)
    (s : Sheet) : Sheet :=
  let s :=
    if alwaysMounted p then
      assign_animation
        (withSpring (height p)
           {| damping := Some (customSheetDamping p ?? 400);
              mass := Some (customSheetMass p ?? 0.4) |}) s
    else
      setOpen false (assign_number 0 s) in
  if updateOnChange && defined (onVisibilityChange p) then
    call_onVisibilityChange false s
  else s.

Definition openSheet (p : BottomSheetProps) (updateOnChange : bool)
    (s : Sheet) : Sheet :=
  let s :=
    if alwaysMounted p then
      scrollTo_top
        (assign_animation
           (withSpring 0
              {| damping := Some (customSheetDamping p ?? 400);
                 mass := Some (customSheetMass p ?? 0.4) |}) s)
    else
      setOpen true (assign_number 0 s) in
  if updateOnChange && defined (onVisibilityChange p) then
    call_onVisibilityChange true s
  else s.

(** The body of [useEffect(..., [props.visible, openSheet, closeSheet])] *)
Definition useEffect_visible (p : BottomSheetProps) (s : Sheet) : Sheet :=
  if visible p then openSheet p false s else closeSheet p false s.

(** [onScroll], with [y = event.nativeEvent.contentOffset.y] *)
Definition onScroll (p : BottomSheetProps) (y : Q) (s : Sheet) : Sheet :=
  if alwaysMounted p then
    if leq y 5 then with_canClose true s
    else if geq y 5 then with_canClose false s
    else if negb (startedClosing s) then with_canClose false s
    else s
  else
    if leq y 5 && leq (value (offset s)) 5 then with_canClose true s
    else if negb (startedClosing s) then with_canClose false s
    else s.

(** [handlePanGestureEvent], with [y = event.nativeEvent.y] *)
Definition handlePanGestureEvent (y : Q) (s : Sheet) : Sheet :=
  if canClose s then
    let s := with_startedClosing true s in
    let s := if strictEq (startY s) 0 then with_startY y s else s in
    let offsetDelta := (startY s - y) * -1 + value (offset s) in
    assign_number (if gt offsetDelta 0 then offsetDelta else 0) s
  else s.

Definition handlePanGestureEnd (p : BottomSheetProps) (s : Sheet) : Sheet :=
  let s := with_startedClosing false s in
  if lt (value (offset s)) (swipeDownThreshold p ?? 50) then
    with_canClose true
      (assign_animation
         (withSpring 0 {| damping := Some 100; mass := None |}) s)
  else
    assign_animation
      (withTiming (height p) (Some (runOnJS_closeSheet p false)))
      (closeSheet p true s).

Definition handlePanGestureStart (s : Sheet) : Sheet :=
  with_startY 0 s.

(** [onHandlerStateChange] of the [PanGestureHandler] *)
Definition onHandlerStateChange (p : BottomSheetProps) (g : GestureState)
    (s : Sheet) : Sheet :=
  match g with
  | END => handlePanGestureEnd p s
  | BEGAN => handlePanGestureStart s
  | _ => s
  end.

(** [onPress] of the [TouchableOpacity] above the content *)
Definition onPress (p : BottomSheetProps) (s : Sheet) : Sheet :=
  closeSheet p true s.

(** [entering] and [exiting] of the sheet's [Animated.View] *)
Definition sheet_entering (p : BottomSheetProps) : option Springify :=
  if alwaysMounted p then None
  else Some {| springMass := customSheetMass p ?? 0.4;
               springDamping := customSheetDamping p ?? 100 |}.

Definition sheet_exiting (p : BottomSheetProps) : option Springify :=
  if alwaysMounted p then None
  else Some {| springMass := customSheetMass p ?? 0.4;
               springDamping := customSheetDamping p ?? 100 |}.

(** ** Rendering and the events delivered by the host *)

(** The subtree with the gesture handler and the [ScrollView] is rendered
    under [(isOpen || props.useEnteringAndExitingAnimations === false)]. *)
Definition rendered (s : Sheet) : bool :=
  isOpen s || alwaysMounted (props s).

(** Running the function body again: [canClose], [startedClosing] and
    [startY] are [let] variables of the body, so the handlers of the new
    render see fresh ones.  A [ScrollView] that was not rendered before is
    mounted at the top; one that is no longer rendered is unmounted. *)
Definition render (s : Sheet) : Sheet :=
  let s := with_startY 0 (with_startedClosing false (with_canClose true s)) in
  with_scrollY (if rendered s then Some (scrollY s ?? 0) else None) s.

(** React renders again when [setOpen] changed [isOpen]; the props object is
    the same, so the effect does not run again. *)
Definition commit (before after : Sheet) : Sheet :=
  if Bool.eqb (isOpen before) (isOpen after) then after else render after.

(** The parent renders [<BottomSheet {...p} />]: [props] is a new object, so
    [openSheet] and [closeSheet] are new and the effect runs. *)
Definition parent_render (p : BottomSheetProps) (s : Sheet) : Sheet :=
  let s := render (with_props p s) in
  commit s (useEffect_visible p s).

(** The animation runtime completes the running animation of [offset]: the
    value reaches its target and the completion callback runs. *)
Definition animation_end (s : Sheet) : Sheet :=
  match running (offset s) with
  | None => s
  | Some a =>
      let s' := with_offset {| value := toValue_of a; running := None |} s in
      match callback_of a with
      | Some (runOnJS_closeSheet p updateOnChange) =>
          commit s (closeSheet p updateOnChange s')
      | None => s'
      end
  end.

(** One frame of a running animation: [offset.value] takes some value [v]. *)
Definition animation_frame (v : Q) (s : Sheet) : Sheet :=
  match running (offset s) with
  | None => s
  | Some a => with_offset {| value := v; running := Some a |} s
  end.

Inductive Event : Type :=
  | Render (p : BottomSheetProps)
  | Scroll (y : Q)
  | GestureEvent (y : Q)
  | HandlerStateChange (g : GestureState)
  | Press
  | AnimationFrame (v : Q)
  | AnimationEnd.

(** The handlers of the subtree only run while it is rendered, and they are
    those of the latest render. *)
Definition step (s : Sheet) (e : Event) : Sheet :=
  match e with
  | Render p => parent_render p s
  | Scroll y =>
      if rendered s then onScroll (props s) y (with_scrollY (Some y) s) else s
  | GestureEvent y =>
      if rendered s then handlePanGestureEvent y s else s
  | HandlerStateChange g =>
      if rendered s then commit s (onHandlerStateChange (props s) g s) else s
  | Press =>
      if rendered s then commit s (onPress (props s) s) else s
  | AnimationFrame v => animation_frame v s
  | AnimationEnd => animation_end s
  end.

Definition run (s : Sheet) (es : list Event) : Sheet :=
  fold_left step es s.

(** The first render: [useState(props.visible)], [useSharedValue(height)],
    the initial values of the three variables, then the effect. *)
Definition mount (p : BottomSheetProps) : Sheet :=
  let s :=
    render
      {| props := p; isOpen := visible p;
         offset := {| value := height p; running := None |};
         canClose := true; startedClosing := false; startY := 0;
         scrollY := None; calls := [] |} in
  commit s (useEffect_visible p s).

(** States the component can be in *)
Inductive reachable : Sheet -> Prop :=
  | reachable_mount (p : BottomSheetProps) : reachable (mount p)
  | reachable_step (s : Sheet) (e : Event) :
      reachable s -> reachable (step s e).

(** ** The animated styles and the returned element tree *)

(** [opacity]: [1 - offset.value / height] *)
Definition opacity (p : BottomSheetProps) (s : Sheet) : Q :=
  1 - value (offset s) / height p.

(** [translateY]: [offset.value] *)
Definition translateY (s : Sheet) : Q := value (offset s).

(** The props of [BottomSheetProps] that only the returned element tree
    reads.  [children] is the slot [children_slot] of the tree. *)
Record PresentationProps (Style : Type) : Type := {
  fullScreenPaddingTop : option Q;
  showScrollbar : option bool;
  animateBackdropOpacityWithDrag : option bool;
  hideHandle : option bool;
  handleStyles : option Style;
  hideSheetBackgroundContainer : option bool;
  sheetBackgroundContainerStyles : option Style
}.

Arguments fullScreenPaddingTop {Style}.
Arguments showScrollbar {Style}.
Arguments animateBackdropOpacityWithDrag {Style}.
Arguments hideHandle {Style}.
Arguments handleStyles {Style}.
Arguments hideSheetBackgroundContainer {Style}.
Arguments sheetBackgroundContainerStyles {Style}.

(** [x === true] on an optional boolean prop *)
Definition isTrue (x : option bool) : bool :=
  match x with
  | Some true => true
  | _ => false
  end.

(** The opacity entry of the backdrop's style: the animated style [opacity]
    or the constant [{ opacity: 0 }] *)
Inductive BackdropOpacity : Type :=
  | animated_opacity (v : Q)
  | constant_opacity (v : Q).

(** [FadeIn] and [FadeOut] *)
Inductive Fade : Type := FadeIn | FadeOut.

(** The elements of the tree, each with the attributes that depend on props
    or state; the entries of [StyleSheet.create] are constants and omitted. *)
#[warnings="-register-all"] Inductive Element (Style : Type) : Type :=
  | children_slot
  | Fragment (kids : list (Element Style))
  | Backdrop (style : BackdropOpacity) (entering exiting : option Fade)
  | PanGestureHandler (kid : Element Style)
  | SheetView (viewHeight viewTranslateY : Q)
      (entering exiting : option Springify) (kid : Element Style)
  | ScrollView (showsVerticalScrollIndicator
                showsHorizontalScrollIndicator : bool)
      (kids : list (Element Style))
  | TouchableOpacity (paddingTop : Q)
  | View (kids : list (Element Style))
  | BottomSheetContainer (styles : option Style) (kids : list (Element Style))
  | BottomSheetHandle (styles : option Style).

Arguments children_slot {Style}.
Arguments Fragment {Style}.
Arguments Backdrop {Style}.
Arguments PanGestureHandler {Style}.
Arguments SheetView {Style}.
Arguments ScrollView {Style}.
Arguments TouchableOpacity {Style}.
Arguments View {Style}.
Arguments BottomSheetContainer {Style}.
Arguments BottomSheetHandle {Style}.

(** The content below the [TouchableOpacity]:
    [<View style={{ justifyContent: 'flex-end' }}> ... </View>] *)
Definition sheet_content {Style : Type} (v : PresentationProps Style)
    : Element Style :=
  View
    [ if isTrue (hideSheetBackgroundContainer v) then
        Fragment [children_slot]
      else
        BottomSheetContainer (sheetBackgroundContainerStyles v)
          [ if isTrue (hideHandle v) then Fragment []
            else BottomSheetHandle (handleStyles v);
            children_slot ] ].

(** The value returned by [BottomSheet] *)
Definition BottomSheet_return {Style : Type} (v : PresentationProps Style)
    (s : Sheet) : Element Style :=
  let p := props s in
  Fragment
    (if isOpen s || alwaysMounted p then
       [ Fragment
           [ Backdrop
               (if isTrue (animateBackdropOpacityWithDrag v) || alwaysMounted p
                then animated_opacity (opacity p s)
                else constant_opacity 0)
               (if alwaysMounted p then None else Some FadeIn)
               (if alwaysMounted p then None
                else if isTrue (animateBackdropOpacityWithDrag v) then None
                else Some FadeOut);
             PanGestureHandler
               (SheetView (height p) (translateY s)
                  (sheet_entering p) (sheet_exiting p)
                  (ScrollView (showScrollbar v ?? false)
                     (showScrollbar v ?? false)
                     [ TouchableOpacity (fullScreenPaddingTop v ?? 0);
                       sheet_content v ])) ] ]
     else []).

(** How many nodes of a tree satisfy [f] *)
Fixpoint occurrences {Style : Type} (f : Element Style -> bool)
    (e : Element Style) : nat :=
  let all :=
    fix all (l : list (Element Style)) : nat :=
      match l with
      | [] => 0%nat
      | k :: l' => (occurrences f k + all l')%nat
      end in
  ((if f e then 1 else 0) +
   match e with
   | Fragment kids => all kids
   | PanGestureHandler kid => occurrences f kid
   | SheetView _ _ _ _ kid => occurrences f kid
   | ScrollView _ _ kids => all kids
   | View kids => all kids
   | BottomSheetContainer _ kids => all kids
   | _ => 0%nat
   end)%nat.

Definition is_children {Style : Type} (e : Element Style) : bool :=
  match e with children_slot => true | _ => false end.

Definition is_handle {Style : Type} (e : Element Style) : bool :=
  match e with BottomSheetHandle _ => true | _ => false end.

Definition is_container {Style : Type} (e : Element Style) : bool :=
  match e with BottomSheetContainer _ _ => true | _ => false end.

Definition is_touchable {Style : Type} (e : Element Style) : bool :=
  match e with TouchableOpacity _ => true | _ => false end.

(** ** Event sequences *)

(** The parent never supplies [onVisibilityChange]. *)
Definition without_callback (e : Event) : Prop :=
  match e with
  | Render p => onVisibilityChange p = None
  | _ => True
  end.

(** Heights are not negative, and a running animation does not take the
    offset below 0. *)
Definition above_zero (e : Event) : Prop :=
  match e with
  | Render p => 0 <= height p
  | AnimationFrame v => 0 <= v
  | _ => True
  end.

(** Scroll updates, pan-moves and gesture state changes other than [END] *)
Definition inside_gesture (e : Event) : Prop :=
  match e with
  | Scroll _ | GestureEvent _ => True
  | HandlerStateChange g => g <> END
  | _ => False
  end.

(** ** The claims' wording, for comparison with the code *)

(** Scroll arbitration with the two modes as the specification words them:
    both positions are tested in the always-mounted mode, the scroll position
    alone in the mounted-on-demand mode. *)
Definition onScroll_as_specified (p : BottomSheetProps) (y : Q) (s : Sheet)
    : Sheet :=
  if alwaysMounted p then
    if leq y 5 && leq (value (offset s)) 5 then with_canClose true s
    else if negb (startedClosing s) then with_canClose false s
    else s
  else
    if leq y 5 then with_canClose true s
    else if geq y 5 then with_canClose false s
    else if negb (startedClosing s) then with_canClose false s
    else s.

(** The default damping as the specification words it. *)
Definition default_damping_as_specified (p : BottomSheetProps) : Q :=
  if alwaysMounted p then 100 else 400.

(** Gesture begin as the specification words it: all three variables are
    reset. *)
Definition handlePanGestureStart_as_specified (s : Sheet) : Sheet :=
  with_canClose true (with_startedClosing false (with_startY 0 s)).

(** ** Comparisons *)

Lemma leq_true (x y : Q) : leq x y = true <-> x <= y.
Proof. apply Qle_bool_iff. Qed.

Lemma leq_false (x y : Q) : leq x y = false <-> y < x.
Proof.
  unfold leq. split; intro H.
  - apply Qnot_le_lt. intro Hle. apply Qle_bool_iff in Hle. congruence.
  - destruct (Qle_bool x y) eqn:E; [|reflexivity].
    apply Qle_bool_iff in E. lra.
Qed.

Lemma lt_true (x y : Q) : lt x y = true <-> x < y.
Proof. unfold lt. rewrite negb_true_iff. apply (leq_false y x). Qed.

Lemma lt_false (x y : Q) : lt x y = false <-> y <= x.
Proof. unfold lt. rewrite negb_false_iff. apply (leq_true y x). Qed.

Lemma gt_true (x y : Q) : gt x y = true <-> y < x.
Proof. unfold gt. rewrite negb_true_iff. apply (leq_false x y). Qed.

Lemma gt_false (x y : Q) : gt x y = false <-> x <= y.
Proof. unfold gt. rewrite negb_false_iff. apply (leq_true x y). Qed.

Lemma geq_true (x y : Q) : geq x y = true <-> y <= x.
Proof. apply Qle_bool_iff. Qed.

(** ** What each callback does to the log, to [isOpen] and to the props *)

Ltac case_if :=
  match goal with
  | |- context [if ?b then _ else _] => destruct b eqn:?
  end.

Ltac via L := etransitivity; [apply L | reflexivity].

Ltac callbacks :=
  unfold closeSheet, openSheet, useEffect_visible, onScroll,
    handlePanGestureEvent, handlePanGestureEnd, handlePanGestureStart,
    onHandlerStateChange, onPress, scrollTo_top, call_onVisibilityChange,
    assign_animation, assign_number.

Lemma closeSheet_calls p b s :
  calls (closeSheet p b s) =
  calls s ++ (if b && defined (onVisibilityChange p) then [false] else []).
Proof.
  callbacks. destruct (b && defined (onVisibilityChange p));
    destruct (alwaysMounted p); simpl; auto using app_nil_r.
Qed.

Lemma openSheet_calls p b s :
  calls (openSheet p b s) =
  calls s ++ (if b && defined (onVisibilityChange p) then [true] else []).
Proof.
  callbacks. destruct (b && defined (onVisibilityChange p));
    destruct (alwaysMounted p); simpl; destruct (scrollY s); simpl;
    auto using app_nil_r.
Qed.

Lemma closeSheet_props p b s : props (closeSheet p b s) = props s.
Proof. callbacks. repeat case_if; reflexivity. Qed.

Lemma openSheet_props p b s : props (openSheet p b s) = props s.
Proof. callbacks. repeat case_if; simpl; destruct (scrollY s); reflexivity. Qed.

Lemma closeSheet_isOpen p b s :
  isOpen (closeSheet p b s) = if alwaysMounted p then isOpen s else false.
Proof. callbacks. repeat case_if; reflexivity. Qed.

Lemma openSheet_isOpen p b s :
  isOpen (openSheet p b s) = if alwaysMounted p then isOpen s else true.
Proof. callbacks. repeat case_if; simpl; destruct (scrollY s); reflexivity. Qed.

Lemma render_calls s : calls (render s) = calls s.
Proof. reflexivity. Qed.

Lemma render_props s : props (render s) = props s.
Proof. reflexivity. Qed.

Lemma render_isOpen s : isOpen (render s) = isOpen s.
Proof. reflexivity. Qed.

Lemma commit_calls s s' : calls (commit s s') = calls s'.
Proof. unfold commit. case_if; reflexivity. Qed.

Lemma commit_props s s' : props (commit s s') = props s'.
Proof. unfold commit. case_if; reflexivity. Qed.

Lemma commit_isOpen s s' : isOpen (commit s s') = isOpen s'.
Proof. unfold commit. case_if; reflexivity. Qed.

Lemma commit_offset s s' : offset (commit s s') = offset s'.
Proof. unfold commit. case_if; reflexivity. Qed.

Lemma handlePanGestureEnd_calls p s :
  calls (handlePanGestureEnd p s) = calls s \/
  calls (handlePanGestureEnd p s) = calls s ++ [false].
Proof.
  unfold handlePanGestureEnd. case_if.
  - left. reflexivity.
  - unfold assign_animation at 1. simpl. rewrite closeSheet_calls. simpl.
    case_if; [right | left]; auto using app_nil_r.
Qed.

Lemma handlePanGestureEnd_props p s : props (handlePanGestureEnd p s) = props s.
Proof.
  unfold handlePanGestureEnd. case_if; [reflexivity|].
  unfold assign_animation. simpl. rewrite closeSheet_props. reflexivity.
Qed.

Lemma handlePanGestureEnd_isOpen p s :
  isOpen (handlePanGestureEnd p s) = isOpen s \/
  isOpen (handlePanGestureEnd p s) = false.
Proof.
  unfold handlePanGestureEnd. case_if; [left; reflexivity|].
  unfold assign_animation. simpl. rewrite closeSheet_isOpen.
  case_if; auto.
Qed.

Lemma handlePanGestureEvent_frame y s :
  calls (handlePanGestureEvent y s) = calls s /\
  props (handlePanGestureEvent y s) = props s /\
  isOpen (handlePanGestureEvent y s) = isOpen s.
Proof. callbacks. repeat case_if; simpl; auto. Qed.

Lemma onScroll_frame p y s :
  calls (onScroll p y s) = calls s /\
  props (onScroll p y s) = props s /\
  isOpen (onScroll p y s) = isOpen s /\
  offset (onScroll p y s) = offset s /\
  startedClosing (onScroll p y s) = startedClosing s /\
  startY (onScroll p y s) = startY s /\
  scrollY (onScroll p y s) = scrollY s.
Proof. callbacks. repeat case_if; simpl; auto 10. Qed.

(** A step appends to the log nothing, [false], or nothing else. *)
Lemma step_calls s e :
  calls (step s e) = calls s \/ calls (step s e) = calls s ++ [false].
Proof.
  destruct e; simpl.
  - left. unfold parent_render. rewrite commit_calls. unfold useEffect_visible.
    case_if; [rewrite openSheet_calls | rewrite closeSheet_calls];
      simpl; apply app_nil_r.
  - case_if; [|auto]. left. via (onScroll_frame (props s) y).
  - case_if; [|auto]. left. via handlePanGestureEvent_frame.
  - case_if; [|auto]. rewrite commit_calls.
    destruct g; simpl; auto. apply handlePanGestureEnd_calls.
  - case_if; [|auto]. rewrite commit_calls. unfold onPress.
    rewrite closeSheet_calls. case_if; auto using app_nil_r.
  - unfold animation_frame. destruct (running (offset s)); auto.
  - unfold animation_end. destruct (running (offset s)) as [a|]; auto.
    destruct (callback_of a) as [[p b]|]; auto.
    rewrite commit_calls, closeSheet_calls. simpl.
    case_if; auto using app_nil_r.
Qed.

Lemma mount_calls p : calls (mount p) = [].
Proof.
  unfold mount. rewrite commit_calls. unfold useEffect_visible.
  case_if; [rewrite openSheet_calls | rewrite closeSheet_calls]; reflexivity.
Qed.

(** In the mounted-on-demand mode a sheet whose [visible] prop is false is
    not open. *)
Definition closed_when_hidden (s : Sheet) : Prop :=
  alwaysMounted (props s) = false -> visible (props s) = false ->
  isOpen s = false.

Lemma parent_render_props p s : props (parent_render p s) = p.
Proof.
  unfold parent_render. rewrite commit_props. unfold useEffect_visible.
  case_if; [rewrite openSheet_props | rewrite closeSheet_props]; reflexivity.
Qed.

Lemma parent_render_isOpen p s :
  isOpen (parent_render p s) =
  if alwaysMounted p then isOpen s else visible p.
Proof.
  unfold parent_render. rewrite commit_isOpen. unfold useEffect_visible.
  destruct (visible p); [rewrite openSheet_isOpen | rewrite closeSheet_isOpen];
    reflexivity.
Qed.

Lemma step_keeps_props s e :
  (forall p, e <> Render p) -> props (step s e) = props s.
Proof.
  intro Hne. destruct e; simpl.
  - exfalso. eapply Hne. reflexivity.
  - case_if; [|auto]. via (onScroll_frame (props s) y).
  - case_if; [|auto]. via handlePanGestureEvent_frame.
  - case_if; [|auto]. rewrite commit_props.
    destruct g; simpl; auto. apply handlePanGestureEnd_props.
  - case_if; [|auto]. rewrite commit_props. via closeSheet_props.
  - unfold animation_frame. destruct (running (offset s)); auto.
  - unfold animation_end. destruct (running (offset s)) as [a|]; auto.
    destruct (callback_of a) as [[p b]|]; auto.
    rewrite commit_props. via closeSheet_props.
Qed.

Lemma step_isOpen s e :
  (forall p, e <> Render p) ->
  isOpen (step s e) = isOpen s \/ isOpen (step s e) = false.
Proof.
  intro Hne. destruct e; simpl.
  - exfalso. eapply Hne. reflexivity.
  - case_if; [|auto]. left. via (onScroll_frame (props s) y).
  - case_if; [|auto]. left. via handlePanGestureEvent_frame.
  - case_if; [|auto]. rewrite commit_isOpen.
    destruct g; simpl; auto. apply handlePanGestureEnd_isOpen.
  - case_if; [|auto]. rewrite commit_isOpen. unfold onPress.
    rewrite closeSheet_isOpen. case_if; auto.
  - unfold animation_frame. destruct (running (offset s)); auto.
  - unfold animation_end. destruct (running (offset s)) as [a|]; auto.
    destruct (callback_of a) as [[p b]|]; auto.
    rewrite commit_isOpen, closeSheet_isOpen. simpl. case_if; auto.
Qed.

Lemma reachable_closed_when_hidden s : reachable s -> closed_when_hidden s.
Proof.
  induction 1 as [p | s e Hs IH]; unfold closed_when_hidden in *.
  - unfold mount. rewrite commit_props, commit_isOpen.
    unfold useEffect_visible.
    destruct (visible p) eqn:Hv;
      [rewrite openSheet_props, openSheet_isOpen
      |rewrite closeSheet_props, closeSheet_isOpen]; simpl;
      intros Hm Hvis; rewrite Hm; congruence.
  - destruct e as [p| | | | | |];
      try (rewrite step_keeps_props by (intro; discriminate);
           intros Hm Hv;
           match goal with
           | |- isOpen (step s ?e) = false =>
               destruct (step_isOpen s e ltac:(intro; discriminate)) as [E|E]
           end;
           rewrite E; auto).
    simpl. rewrite parent_render_props, parent_render_isOpen.
    intros Hm Hv. rewrite Hm. exact Hv.
Qed.

Lemma run_reachable p es : reachable (run (mount p) es).
Proof.
  unfold run. generalize (reachable_mount p). generalize (mount p).
  induction es as [|e es IH]; intros s Hs; simpl; auto using reachable_step.
Qed.

Lemma run_app s es es' : run s (es ++ es') = run (run s es) es'.
Proof. apply fold_left_app. Qed.

Lemma handlePanGestureEnd_close p s :
  lt (value (offset s)) (swipeDownThreshold p ?? 50) = false ->
  handlePanGestureEnd p s =
  assign_animation
    (withTiming (height p) (Some (runOnJS_closeSheet p false)))
    (closeSheet p true (with_startedClosing false s)).
Proof. intro H. unfold handlePanGestureEnd. simpl. rewrite H. reflexivity. Qed.

Lemma handlePanGestureEnd_snap p s :
  lt (value (offset s)) (swipeDownThreshold p ?? 50) = true ->
  handlePanGestureEnd p s =
  with_canClose true
    (assign_animation (withSpring 0 {| damping := Some 100; mass := None |})
       (with_startedClosing false s)).
Proof. intro H. unfold handlePanGestureEnd. simpl. rewrite H. reflexivity. Qed.

(** ** The claims *)

(** C1 (as amended).  On a scroll update [canClose] is computed per mode.  In
    the always-mounted mode it follows the content scroll position alone: at
    most 5px from the top gives true, more than 5px gives false.  In the
    mounted-on-demand mode it becomes true only when the scroll position is
    at most 5px and the sheet offset is at most 5px; otherwise it becomes
    false unless a close-drag has started, in which case it is kept. *)
Theorem onScroll_canClose_by_mode p y s :
  let s' := onScroll p y s in
  if alwaysMounted p then
    (y <= 5 -> canClose s' = true) /\
    (5 < y -> canClose s' = false)
  else
    (y <= 5 /\ value (offset s) <= 5 -> canClose s' = true) /\
    (~ (y <= 5 /\ value (offset s) <= 5) -> startedClosing s = false ->
     canClose s' = false) /\
    (~ (y <= 5 /\ value (offset s) <= 5) -> startedClosing s = true ->
     canClose s' = canClose s).
Proof.
  unfold onScroll. destruct (alwaysMounted p).
  - destruct (leq y 5) eqn:Hy; simpl.
    + apply leq_true in Hy. split; [reflexivity | intro; lra].
    + apply leq_false in Hy.
      assert (Hg : geq y 5 = true) by (apply geq_true; lra).
      rewrite Hg. simpl. split; [intro; lra | reflexivity].
  - destruct (leq y 5 && leq (value (offset s)) 5) eqn:Hb; simpl.
    + apply andb_true_iff in Hb. destruct Hb as [Hy Ho].
      apply leq_true in Hy, Ho.
      repeat split; try reflexivity; intro Hn; exfalso; apply Hn; auto.
    + assert (Hn : ~ (y <= 5 /\ value (offset s) <= 5)).
      { intros [Hy Ho]. apply leq_true in Hy, Ho.
        rewrite Hy, Ho in Hb. discriminate. }
      repeat split.
      * intro H. contradiction.
      * intros _ Hs. rewrite Hs. reflexivity.
      * intros _ Hs. rewrite Hs. reflexivity.
Qed.

(** C2 (as amended).  When [customSheetDamping] is not supplied, the spring
    that animates the offset open (toward 0) and closed in the always-mounted
    mode has damping 400, and the spring of the entering and exiting
    transitions in the mounted-on-demand mode has damping 100, where open and
    close assign the offset directly; the mass is [customSheetMass], 0.4 when
    it is not supplied, in both modes. *)
Theorem default_spring_parameters p b s :
  customSheetDamping p = None ->
  if alwaysMounted p then
    running (offset (openSheet p b s)) =
      Some (withSpring 0 {| damping := Some 400;
                            mass := Some (customSheetMass p ?? 0.4) |}) /\
    running (offset (closeSheet p b s)) =
      Some (withSpring (height p)
              {| damping := Some 400;
                 mass := Some (customSheetMass p ?? 0.4) |}) /\
    sheet_entering p = None /\ sheet_exiting p = None
  else
    sheet_entering p =
      Some {| springMass := customSheetMass p ?? 0.4; springDamping := 100 |} /\
    sheet_exiting p =
      Some {| springMass := customSheetMass p ?? 0.4; springDamping := 100 |} /\
    offset (openSheet p b s) = {| value := 0; running := None |} /\
    offset (closeSheet p b s) = {| value := 0; running := None |}.
Proof.
  intro Hd.
  unfold sheet_entering, sheet_exiting, openSheet, closeSheet, scrollTo_top.
  rewrite Hd. destruct (alwaysMounted p); simpl;
    destruct (b && defined (onVisibilityChange p)); simpl;
    destruct (scrollY s); simpl; auto.
Qed.

(** C3.  When the [visible] prop becomes true, the open operation leaves the
    inner scroll position at the top whatever it was before, in both modes:
    by [scrollTo] in the always-mounted mode, by mounting a new [ScrollView]
    in the mounted-on-demand mode. *)
Theorem open_resets_scroll_position p0 es p :
  let s := run (mount p0) es in
  visible (props s) = false ->
  visible p = true ->
  alwaysMounted p = alwaysMounted (props s) ->
  scrollY (step s (Render p)) = Some 0 /\ rendered (step s (Render p)) = true.
Proof.
  intros s Hhid Hvis Hmode.
  pose proof (reachable_closed_when_hidden s (run_reachable p0 es)) as Hinv.
  unfold closed_when_hidden in Hinv.
  simpl. unfold parent_render, useEffect_visible. rewrite Hvis.
  destruct (alwaysMounted p) eqn:Hm.
  - clearbody s. unfold openSheet, commit, render, rendered, scrollTo_top,
      assign_animation. simpl. rewrite Hm. simpl.
    rewrite orb_true_r. simpl. rewrite eqb_reflx. simpl.
    rewrite Hm, orb_true_r. auto.
  - assert (Ho : isOpen s = false) by (apply Hinv; congruence).
    clearbody s.
    unfold openSheet, commit, render, rendered, assign_number. simpl.
    rewrite Hm, Ho. simpl. auto.
Qed.

(** C4 (as amended).  At the begin of a pan gesture only [startY] is reset,
    to the unset sentinel 0; [canClose] and [startedClosing] keep their
    values.  [startedClosing] is reset to false at the end of a gesture. *)
Theorem handlePanGestureStart_resets_startY_only p s :
  onHandlerStateChange p BEGAN s = with_startY 0 s /\
  startY (onHandlerStateChange p BEGAN s) = 0 /\
  canClose (onHandlerStateChange p BEGAN s) = canClose s /\
  startedClosing (onHandlerStateChange p BEGAN s) = startedClosing s /\
  step s (HandlerStateChange BEGAN) = (if rendered s then with_startY 0 s else s) /\
  startedClosing (onHandlerStateChange p END s) = false.
Proof.
  repeat split.
  - simpl. unfold commit. simpl. rewrite eqb_reflx. reflexivity.
  - simpl. unfold handlePanGestureEnd. case_if; [reflexivity|].
    callbacks. simpl. repeat case_if; reflexivity.
Qed.

(** C5.  A release with the offset at or past the swipe-down threshold
    (50px when not supplied) commits to closing.  The close path runs twice,
    notifying at release and not notifying when the timing animation
    completes, and [onVisibilityChange(false)] is invoked exactly once.  The
    sheet ends with its offset at rest at the maximum height in the
    always-mounted mode, and unmounted in the mounted-on-demand mode. *)
Theorem release_past_threshold_closes s :
  rendered s = true ->
  defined (onVisibilityChange (props s)) = true ->
  swipeDownThreshold (props s) ?? 50 <= value (offset s) ->
  let s1 := step s (HandlerStateChange END) in
  let s3 := run s [HandlerStateChange END; AnimationEnd; AnimationEnd] in
  calls s1 = calls s ++ [false] /\
  running (offset s1) =
    Some (withTiming (height (props s))
            (Some (runOnJS_closeSheet (props s) false))) /\
  calls s3 = calls s ++ [false] /\
  if alwaysMounted (props s) then
    offset s3 = {| value := height (props s); running := None |}
  else
    isOpen s3 = false /\ rendered s3 = false /\ scrollY s3 = None /\
    running (offset s3) = None.
Proof.
  intros Hr Hcb Hth. apply lt_false in Hth.
  cbn [run fold_left step]. rewrite Hr. cbn [onHandlerStateChange].
  rewrite (handlePanGestureEnd_close _ _ Hth). clear Hth.
  destruct s as [[v [[]|] th mh cm cd [[|]|]] [|] o cc sc sy scy cs];
    try discriminate; repeat split; reflexivity.
Qed.

(** C6.  A release with the offset strictly below the swipe-down threshold
    (50px when not supplied) snaps the sheet back: a spring takes the offset
    to 0, [canClose] is forced to true, and [onVisibilityChange] is not
    invoked. *)
Theorem release_below_threshold_snaps_back s :
  rendered s = true ->
  value (offset s) < swipeDownThreshold (props s) ?? 50 ->
  let s1 := step s (HandlerStateChange END) in
  let s2 := step s1 AnimationEnd in
  canClose s1 = true /\
  running (offset s1) =
    Some (withSpring 0 {| damping := Some 100; mass := None |}) /\
  calls s1 = calls s /\
  offset s2 = {| value := 0; running := None |} /\
  canClose s2 = true /\ calls s2 = calls s /\ isOpen s2 = isOpen s.
Proof.
  intros Hr Hth. apply lt_true in Hth.
  cbn [step]. rewrite Hr. cbn [onHandlerStateChange].
  rewrite (handlePanGestureEnd_snap _ _ Hth). clear Hth.
  destruct s as [pr [|] o cc sc sy scy cs]; repeat split; reflexivity.
Qed.

(** C7.  A change of the [visible] prop, in either direction, never invokes
    [onVisibilityChange], and it updates the open/closed state: [isOpen] in
    the mounted-on-demand mode, the target of the offset's spring in the
    always-mounted mode. *)
Theorem visible_prop_change_is_silent s p :
  let s' := step s (Render p) in
  calls s' = calls s /\
  props s' = p /\
  if alwaysMounted p then
    running (offset s') =
      Some (withSpring (if visible p then 0 else height p)
              {| damping := Some (customSheetDamping p ?? 400);
                 mass := Some (customSheetMass p ?? 0.4) |})
  else
    isOpen s' = visible p /\ rendered s' = visible p.
Proof.
  simpl. split; [|split].
  - unfold parent_render. rewrite commit_calls. unfold useEffect_visible.
    case_if; [rewrite openSheet_calls | rewrite closeSheet_calls];
      simpl; apply app_nil_r.
  - apply parent_render_props.
  - unfold rendered. rewrite parent_render_props, parent_render_isOpen.
    destruct (alwaysMounted p) eqn:Hm.
    + unfold parent_render. rewrite commit_offset.
      unfold useEffect_visible, openSheet, closeSheet, scrollTo_top,
        render, rendered.
      simpl. rewrite Hm, orb_true_r. destruct (visible p); reflexivity.
    + rewrite orb_false_r. auto.
Qed.

(** C8.  A pan-move with [canClose] true latches [startY] to the reported
    position when it is unset, and sets the offset to
    max(-(startY - y) + offset, 0), which is not negative; a pan-move with
    [canClose] false changes nothing. *)
Theorem handlePanGestureEvent_offset y s :
  let s' := handlePanGestureEvent y s in
  if canClose s then
    startY s' = (if strictEq (startY s) 0 then y else startY s) /\
    value (offset s') == Qmax (- (startY s' - y) + value (offset s)) 0 /\
    running (offset s') = None /\
    0 <= value (offset s') /\
    startedClosing s' = true
  else s' = s.
Proof.
  unfold handlePanGestureEvent. destruct (canClose s); [|reflexivity].
  simpl. set (y0 := if strictEq (startY s) 0 then y else startY s).
  assert (Hy : startY (if strictEq (startY s) 0
                       then with_startY y (with_startedClosing true s)
                       else with_startedClosing true s) = y0).
  { unfold y0. destruct (strictEq (startY s) 0); reflexivity. }
  assert (Ho : value (offset (if strictEq (startY s) 0
                       then with_startY y (with_startedClosing true s)
                       else with_startedClosing true s)) = value (offset s)).
  { destruct (strictEq (startY s) 0); reflexivity. }
  assert (Hs : startedClosing (if strictEq (startY s) 0
                       then with_startY y (with_startedClosing true s)
                       else with_startedClosing true s) = true).
  { destruct (strictEq (startY s) 0); reflexivity. }
  rewrite Hy, Ho, Hs.
  destruct (gt ((y0 - y) * -1 + value (offset s)) 0) eqn:Hg.
  - apply gt_true in Hg. repeat split; try lra.
    rewrite Q.max_l; lra.
  - apply gt_false in Hg. repeat split; try lra.
    rewrite Q.max_r; lra.
Qed.

(** C9.  Whatever the sequence of events, [onVisibilityChange] is only ever
    invoked with the argument false. *)
Theorem onVisibilityChange_only_false p es :
  Forall (fun v => v = false) (calls (run (mount p) es)).
Proof.
  pose proof (run_reachable p es) as Hr.
  induction Hr as [p' | s e Hs IH].
  - rewrite mount_calls. constructor.
  - destruct (step_calls s e) as [E|E]; rewrite E; auto.
    apply Forall_app. auto.
Qed.

(** C10.  In the mounted-on-demand mode every invocation of the close
    operation sets the offset to 0 and [isOpen] to false; after a committed
    swipe-close and the completion of its timing animation the offset rests
    at 0 and the sheet is unmounted. *)
Theorem on_demand_close_rests_at_zero p :
  alwaysMounted p = false ->
  (forall b s,
     offset (closeSheet p b s) = {| value := 0; running := None |} /\
     isOpen (closeSheet p b s) = false) /\
  (forall s,
     props s = p -> rendered s = true ->
     swipeDownThreshold p ?? 50 <= value (offset s) ->
     let s2 := run s [HandlerStateChange END; AnimationEnd] in
     offset s2 = {| value := 0; running := None |} /\
     isOpen s2 = false /\ rendered s2 = false).
Proof.
  intro Hm. split.
  - intros b s. unfold closeSheet. rewrite Hm.
    destruct (b && defined (onVisibilityChange p)); auto.
  - intros s Hp Hr Hth. subst p. apply lt_false in Hth.
    cbn [run fold_left step]. rewrite Hr. cbn [onHandlerStateChange].
    rewrite (handlePanGestureEnd_close _ _ Hth). clear Hth.
    destruct s as [[v [[]|] th mh cm cd [[|]|]] [|] o cc sc sy scy cs];
      try discriminate; repeat split; reflexivity.
Qed.

(** ** Further properties of the handlers *)

Lemma handlePanGestureEnd_calls_exact p s :
  calls (handlePanGestureEnd p s) =
  calls s ++
  (if lt (value (offset s)) (swipeDownThreshold p ?? 50) then []
   else if defined (onVisibilityChange p) then [false] else []).
Proof.
  destruct (lt (value (offset s)) (swipeDownThreshold p ?? 50)) eqn:Hlt.
  - rewrite (handlePanGestureEnd_snap _ _ Hlt). simpl. symmetry. apply app_nil_r.
  - rewrite (handlePanGestureEnd_close _ _ Hlt). unfold assign_animation.
    simpl. rewrite closeSheet_calls. reflexivity.
Qed.

(** The completion callbacks that are pending never notify. *)
Definition pending_callback_silent (s : Sheet) : Prop :=
  forall a p b,
    running (offset s) = Some a ->
    callback_of a = Some (runOnJS_closeSheet p b) -> b = false.

Lemma closeSheet_running p b s a :
  running (offset (closeSheet p b s)) = Some a -> callback_of a = None.
Proof.
  unfold closeSheet, call_onVisibilityChange, assign_animation, assign_number.
  repeat case_if; simpl; intro H; inversion H; reflexivity.
Qed.

Lemma openSheet_running p b s a :
  running (offset (openSheet p b s)) = Some a -> callback_of a = None.
Proof.
  unfold openSheet, call_onVisibilityChange, assign_animation, assign_number,
    scrollTo_top.
  repeat case_if; simpl; destruct (scrollY s); simpl; intro H; inversion H;
    reflexivity.
Qed.

Lemma handlePanGestureEnd_running p s a :
  running (offset (handlePanGestureEnd p s)) = Some a ->
  callback_of a = None \/ callback_of a = Some (runOnJS_closeSheet p false).
Proof.
  unfold handlePanGestureEnd. case_if; simpl; intro H; inversion H; auto.
Qed.

Lemma step_pending_callback_silent s e :
  pending_callback_silent s -> pending_callback_silent (step s e).
Proof.
  unfold pending_callback_silent. intros Hs a p b.
  destruct e as [q|y|y|g| |v|]; simpl.
  - unfold parent_render. rewrite commit_offset. unfold useEffect_visible.
    case_if; intros Hr Hc;
      [apply openSheet_running in Hr | apply closeSheet_running in Hr];
      congruence.
  - case_if; [|apply Hs].
    destruct (onScroll_frame (props s) y (with_scrollY (Some y) s))
      as (_ & _ & _ & Ho & _).
    rewrite Ho. apply Hs.
  - case_if; [|apply Hs]. unfold handlePanGestureEvent.
    case_if; [|apply Hs]. simpl. discriminate.
  - case_if; [|apply Hs]. rewrite commit_offset.
    destruct g; simpl; try apply Hs.
    intros Hr Hc. apply handlePanGestureEnd_running in Hr.
    destruct Hr; congruence.
  - case_if; [|apply Hs]. rewrite commit_offset. unfold onPress.
    intros Hr Hc. apply closeSheet_running in Hr. congruence.
  - unfold animation_frame. case_eq (running (offset s)).
    + intros a0 Hr. simpl. intros H Hc. inversion H; subst.
      exact (Hs a p b Hr Hc).
    + intros Hr. apply Hs.
  - unfold animation_end. case_eq (running (offset s)).
    + intros a0 Hr.
      destruct (callback_of a0) as [[q c]|] eqn:Hc0; [|simpl; discriminate].
      rewrite commit_offset. intros Hr' Hc.
      apply closeSheet_running in Hr'. congruence.
    + intros Hr. apply Hs.
Qed.

Lemma mount_pending_callback_silent p : pending_callback_silent (mount p).
Proof.
  unfold pending_callback_silent, mount. intros a q b.
  rewrite commit_offset. unfold useEffect_visible.
  case_if; intros Hr Hc;
    [apply openSheet_running in Hr | apply closeSheet_running in Hr];
    congruence.
Qed.

Lemma reachable_pending_callback_silent s :
  reachable s -> pending_callback_silent s.
Proof.
  induction 1; auto using mount_pending_callback_silent,
    step_pending_callback_silent.
Qed.

Lemma step_calls_without_callback s e :
  pending_callback_silent s ->
  onVisibilityChange (props s) = None ->
  calls (step s e) = calls s.
Proof.
  intros Hs Hn. destruct e as [q|y|y|g| |v|]; simpl.
  - unfold parent_render. rewrite commit_calls. unfold useEffect_visible.
    case_if; [rewrite openSheet_calls | rewrite closeSheet_calls];
      simpl; apply app_nil_r.
  - case_if; [|auto]. via (onScroll_frame (props s) y).
  - case_if; [|auto]. via handlePanGestureEvent_frame.
  - case_if; [|auto]. rewrite commit_calls. destruct g; simpl; auto.
    rewrite handlePanGestureEnd_calls_exact, Hn. simpl.
    case_if; apply app_nil_r.
  - case_if; [|auto]. rewrite commit_calls. unfold onPress.
    rewrite closeSheet_calls, Hn. apply app_nil_r.
  - unfold animation_frame. destruct (running (offset s)); auto.
  - unfold animation_end. destruct (running (offset s)) as [a|] eqn:Hr; auto.
    destruct (callback_of a) as [[q c]|] eqn:Hc; auto.
    rewrite commit_calls, closeSheet_calls.
    rewrite (Hs a q c Hr Hc). simpl. apply app_nil_r.
Qed.

(** X1.  A tap on the region above the content, while the sheet is rendered,
    runs the notifying close path once: [onVisibilityChange(false)] is
    invoked once when the callback is supplied and not at all otherwise.  In
    the mounted-on-demand mode the sheet is unmounted with its offset at 0;
    in the always-mounted mode a spring takes the offset to the height and
    the subtree stays rendered. *)
Theorem press_closes_and_notifies s :
  rendered s = true ->
  let s1 := step s Press in
  calls s1 =
    calls s ++ (if defined (onVisibilityChange (props s)) then [false] else []) /\
  if alwaysMounted (props s) then
    running (offset s1) =
      Some (withSpring (height (props s))
              {| damping := Some (customSheetDamping (props s) ?? 400);
                 mass := Some (customSheetMass (props s) ?? 0.4) |}) /\
    offset (step s1 AnimationEnd) =
      {| value := height (props s); running := None |} /\
    rendered s1 = true
  else
    offset s1 = {| value := 0; running := None |} /\
    isOpen s1 = false /\ rendered s1 = false /\ scrollY s1 = None.
Proof.
  intro Hr. cbn [step]. rewrite Hr. split.
  - rewrite commit_calls. unfold onPress. apply closeSheet_calls.
  - destruct s as [[v [[]|] th mh cm cd [[|]|]] [|] o cc sc sy scy cs];
      try discriminate; repeat split; reflexivity.
Qed.

(** X2.  When the parent never supplies [onVisibilityChange], no sequence of
    events invokes it: the guard before each invocation holds everywhere. *)
Theorem missing_callback_is_never_invoked p es :
  onVisibilityChange p = None ->
  Forall without_callback es ->
  calls (run (mount p) es) = [] /\
  onVisibilityChange (props (run (mount p) es)) = None.
Proof.
  intros Hp Hes.
  assert (Hm : calls (mount p) = [] /\ onVisibilityChange (props (mount p)) = None).
  { split; [apply mount_calls|].
    unfold mount. rewrite commit_props. unfold useEffect_visible.
    case_if; [rewrite openSheet_props | rewrite closeSheet_props]; exact Hp. }
  pose proof (reachable_mount p) as Hr.
  revert Hm Hr. generalize (mount p). unfold run.
  induction Hes as [|e es He Hes IH]; intros s Hs Hr; [exact Hs|].
  simpl. apply IH; [|apply reachable_step; exact Hr].
  destruct Hs as [Hc Hn]. split.
  - rewrite step_calls_without_callback;
      auto using reachable_pending_callback_silent.
  - destruct e as [q| | | | | |];
      try (rewrite step_keeps_props by (intro; discriminate); exact Hn).
    simpl. rewrite parent_render_props. exact He.
Qed.

Lemma pan_moves_without_canClose s ys :
  canClose s = false -> run s (map GestureEvent ys) = s.
Proof.
  intro Hc. unfold run. induction ys as [|y ys IH]; [reflexivity|].
  simpl. unfold handlePanGestureEvent. rewrite Hc.
  destruct (rendered s); exact IH.
Qed.

(** X3.  Once the content is scrolled more than 5px from the top, pan-moves
    do not move the sheet: in the always-mounted mode always, in the
    mounted-on-demand mode when no close-drag has started. *)
Theorem scrolled_content_blocks_drag s y ys :
  rendered s = true ->
  5 < y ->
  alwaysMounted (props s) = true \/ startedClosing s = false ->
  let s' := run s (Scroll y :: map GestureEvent ys) in
  canClose s' = false /\ offset s' = offset s /\ scrollY s' = Some y /\
  s' = step s (Scroll y).
Proof.
  intros Hr Hy Hmode.
  assert (Hc : canClose (step s (Scroll y)) = false).
  { simpl. rewrite Hr. unfold onScroll. simpl.
    assert (H5 : leq y 5 = false) by (apply leq_false; exact Hy).
    assert (H5' : geq y 5 = true) by (apply geq_true; lra).
    rewrite H5, H5'. simpl.
    destruct Hmode as [Hm|Hs]; [rewrite Hm; reflexivity|].
    rewrite Hs. destruct (alwaysMounted (props s)); reflexivity. }
  assert (Hrun : run s (Scroll y :: map GestureEvent ys) = step s (Scroll y)).
  { change (run s (Scroll y :: map GestureEvent ys))
      with (run (step s (Scroll y)) (map GestureEvent ys)).
    apply pan_moves_without_canClose. exact Hc. }
  cbv zeta. rewrite Hrun. split; [exact Hc|]. split; [|split; [|reflexivity]].
  - simpl. rewrite Hr.
    destruct (onScroll_frame (props s) y (with_scrollY (Some y) s))
      as (_ & _ & _ & Ho & _). rewrite Ho. reflexivity.
  - simpl. rewrite Hr.
    destruct (onScroll_frame (props s) y (with_scrollY (Some y) s))
      as (_ & _ & _ & _ & _ & _ & Hy'). rewrite Hy'. reflexivity.
Qed.

(** X4.  The close-drag latch of the mounted-on-demand mode: once a pan-move
    has started a close-drag, scroll updates, further pan-moves and gesture
    state changes other than the end leave [canClose] and [startedClosing]
    true, wherever the content is scrolled. *)
Theorem close_drag_latch s es :
  alwaysMounted (props s) = false ->
  canClose s = true ->
  startedClosing s = true ->
  Forall inside_gesture es ->
  canClose (run s es) = true /\ startedClosing (run s es) = true.
Proof.
  intros Hm Hc Hs Hes. revert s Hm Hc Hs. unfold run.
  induction Hes as [|e es He Hes IH]; intros s Hm Hc Hs; [auto|].
  simpl.
  assert (H : alwaysMounted (props (step s e)) = false /\
              canClose (step s e) = true /\ startedClosing (step s e) = true).
  { destruct e as [q|y|y|g| |v|]; simpl in He; try contradiction; simpl.
    - destruct (rendered s); [|auto]. unfold onScroll. simpl. rewrite Hm, Hs.
      simpl. case_if; simpl; auto.
    - destruct (rendered s); [|auto]. unfold handlePanGestureEvent.
      rewrite Hc. simpl. case_if; simpl; auto.
    - destruct (rendered s); [|auto].
      destruct g; try contradiction; simpl; unfold commit; simpl;
        rewrite eqb_reflx; simpl; auto. }
  destruct H as (Hm' & Hc' & Hs'). apply IH; assumption.
Qed.

Lemma clamp_max (d : Q) : (if gt d 0 then d else 0) == Qmax d 0.
Proof.
  destruct (gt d 0) eqn:Hg.
  - apply gt_true in Hg. rewrite Q.max_l; lra.
  - apply gt_false in Hg. rewrite Q.max_r; lra.
Qed.

Lemma clamp_above_zero (d : Q) : 0 <= (if gt d 0 then d else 0).
Proof.
  destruct (gt d 0) eqn:Hg; [apply gt_true in Hg|]; lra.
Qed.

Lemma clamp_id (d : Q) : 0 <= d -> (if gt d 0 then d else 0) == d.
Proof.
  intro Hd. destruct (gt d 0) eqn:Hg; [reflexivity|].
  apply gt_false in Hg. lra.
Qed.

Lemma strictEq_true (x y : Q) : strictEq x y = true <-> x == y.
Proof. apply Qeq_bool_iff. Qed.

Lemma strictEq_false (x y : Q) : strictEq x y = false <-> ~ x == y.
Proof.
  unfold strictEq. split.
  - intros H E. apply Qeq_bool_iff in E. congruence.
  - intro H. destruct (Qeq_bool x y) eqn:E; [|reflexivity].
    apply Qeq_bool_iff in E. contradiction.
Qed.

Lemma pan_move_unset y s :
  canClose s = true -> startY s == 0 ->
  startY (handlePanGestureEvent y s) = y /\
  canClose (handlePanGestureEvent y s) = true /\
  value (offset (handlePanGestureEvent y s)) == Qmax (value (offset s)) 0.
Proof.
  intros Hc Hz. apply strictEq_true in Hz.
  unfold handlePanGestureEvent. rewrite Hc. simpl. rewrite Hz. simpl.
  split; [reflexivity|]. split; [exact Hc|].
  rewrite clamp_max. apply Q.max_compat; [ring | reflexivity].
Qed.

Lemma pan_move_latched y s :
  canClose s = true -> ~ startY s == 0 ->
  startY (handlePanGestureEvent y s) = startY s /\
  canClose (handlePanGestureEvent y s) = true /\
  value (offset (handlePanGestureEvent y s)) ==
    Qmax (value (offset s) + (y - startY s)) 0.
Proof.
  intros Hc Hz. apply strictEq_false in Hz.
  unfold handlePanGestureEvent. rewrite Hc. simpl. rewrite Hz. simpl.
  split; [reflexivity|]. split; [exact Hc|].
  rewrite clamp_max. apply Q.max_compat; [ring | reflexivity].
Qed.

(** X5.  How pan-moves compose.  With the anchor unset, the first pan-move
    records its position and leaves the offset where it is; every later
    pan-move at a position [y1] below the anchor [y0] adds [y1 - y0] to the
    offset it finds, so a second report of the same position adds the
    displacement again. *)
Theorem pan_moves_add_displacement y0 y1 s :
  canClose s = true ->
  startY s == 0 ->
  ~ y0 == 0 ->
  0 <= value (offset s) ->
  y0 <= y1 ->
  let s1 := handlePanGestureEvent y0 s in
  let s2 := handlePanGestureEvent y1 s1 in
  let s3 := handlePanGestureEvent y1 s2 in
  startY s1 = y0 /\ value (offset s1) == value (offset s) /\
  startY s2 = y0 /\ value (offset s2) == value (offset s) + (y1 - y0) /\
  startY s3 = y0 /\ value (offset s3) == value (offset s) + 2 * (y1 - y0).
Proof.
  intros Hc Hz Hy0 Hv Hle s1 s2 s3.
  destruct (pan_move_unset y0 s Hc Hz) as (A1 & C1 & V1).
  fold s1 in A1, C1, V1. rewrite Q.max_l in V1 by exact Hv.
  assert (N1 : ~ startY s1 == 0) by (rewrite A1; exact Hy0).
  destruct (pan_move_latched y1 s1 C1 N1) as (A2 & C2 & V2).
  fold s2 in A2, C2, V2. rewrite A1 in A2, V2.
  rewrite Q.max_l in V2 by lra.
  assert (N2 : ~ startY s2 == 0) by (rewrite A2; exact Hy0).
  destruct (pan_move_latched y1 s2 C2 N2) as (A3 & _ & V3).
  fold s3 in A3, V3. rewrite A2 in A3, V3.
  rewrite Q.max_l in V3 by lra.
  repeat split; try assumption; lra.
Qed.

(** X6.  The unset sentinel is the position 0 itself: a pan-move reported at
    position 0 leaves the anchor unset, so the next pan-move records its own
    position and does not move the sheet. *)
Theorem pan_move_at_zero_leaves_anchor_unset y1 s :
  canClose s = true ->
  startY s == 0 ->
  0 <= value (offset s) ->
  let s1 := handlePanGestureEvent 0 s in
  let s2 := handlePanGestureEvent y1 s1 in
  startY s1 = 0 /\ startY s2 = y1 /\
  value (offset s2) == value (offset s).
Proof.
  intros Hc Hz Hv s1 s2.
  destruct (pan_move_unset 0 s Hc Hz) as (A1 & C1 & V1).
  fold s1 in A1, C1, V1. rewrite Q.max_l in V1 by exact Hv.
  assert (Z1 : startY s1 == 0) by (rewrite A1; reflexivity).
  destruct (pan_move_unset y1 s1 C1 Z1) as (A2 & _ & V2).
  fold s2 in A2, V2. rewrite Q.max_l in V2 by lra.
  repeat split; try assumption; lra.
Qed.

(** X7.  Closing and opening are idempotent: running the non-notifying path
    after either path changes nothing, and in particular invokes no
    callback. *)
Theorem close_and_open_are_idempotent p b s :
  closeSheet p false (closeSheet p b s) = closeSheet p b s /\
  openSheet p false (openSheet p b s) = openSheet p b s.
Proof.
  unfold closeSheet, openSheet, scrollTo_top, call_onVisibilityChange,
    assign_animation, assign_number.
  destruct s as [pr o off cc sc sy [y|] cs];
    destruct (alwaysMounted p); destruct (b && defined (onVisibilityChange p));
    split; reflexivity.
Qed.

(** The offset, the target of its running animation and the heights that a
    pending callback will use are not negative. *)
Definition offset_above_zero (s : Sheet) : Prop :=
  0 <= value (offset s) /\
  0 <= height (props s) /\
  forall a, running (offset s) = Some a ->
    0 <= toValue_of a /\
    forall p b, callback_of a = Some (runOnJS_closeSheet p b) -> 0 <= height p.

Lemma closeSheet_above_zero p b s :
  0 <= height p -> offset_above_zero s -> offset_above_zero (closeSheet p b s).
Proof.
  intros Hp (Hv & Hh & Ha). unfold offset_above_zero.
  rewrite closeSheet_props. split; [|split; [exact Hh|]].
  - unfold closeSheet, call_onVisibilityChange, assign_animation,
      assign_number. repeat case_if; simpl; lra.
  - intros a Hr. pose proof (closeSheet_running _ _ _ _ Hr) as Hc.
    split; [|intros q c Hq; congruence].
    revert Hr. unfold closeSheet, call_onVisibilityChange, assign_animation,
      assign_number.
    repeat case_if; simpl; intro H; inversion H; simpl; exact Hp.
Qed.

Lemma openSheet_above_zero p b s :
  offset_above_zero s -> offset_above_zero (openSheet p b s).
Proof.
  intros (Hv & Hh & Ha). unfold offset_above_zero.
  rewrite openSheet_props. split; [|split; [exact Hh|]].
  - unfold openSheet, call_onVisibilityChange, assign_animation,
      assign_number, scrollTo_top.
    repeat case_if; simpl; destruct (scrollY s); simpl; lra.
  - intros a Hr. pose proof (openSheet_running _ _ _ _ Hr) as Hc.
    split; [|intros q c Hq; congruence].
    revert Hr. unfold openSheet, call_onVisibilityChange, assign_animation,
      assign_number, scrollTo_top.
    repeat case_if; simpl; destruct (scrollY s); simpl; intro H;
      inversion H; simpl; lra.
Qed.

Lemma commit_above_zero s s' :
  offset_above_zero s' -> offset_above_zero (commit s s').
Proof. unfold commit. case_if; auto. Qed.

Lemma step_above_zero s e :
  above_zero e -> offset_above_zero s -> offset_above_zero (step s e).
Proof.
  intros He Hs. destruct e as [q|y|y|g| |v|]; simpl in *.
  - unfold parent_render. apply commit_above_zero.
    assert (H0 : offset_above_zero (render (with_props q s))).
    { destruct Hs as (Hv & Hh & Ha).
      split; [exact Hv|]. split; [exact He | exact Ha]. }
    unfold useEffect_visible. case_if;
      [apply openSheet_above_zero | apply closeSheet_above_zero]; assumption.
  - case_if; [|assumption]. unfold offset_above_zero.
    destruct (onScroll_frame (props s) y (with_scrollY (Some y) s))
      as (_ & Hp & _ & Ho & _).
    rewrite Hp, Ho. exact Hs.
  - case_if; [|assumption]. unfold handlePanGestureEvent.
    case_if; [|assumption]. destruct Hs as (Hv & Hh & Ha).
    split; [|split].
    + simpl. apply clamp_above_zero.
    + simpl. case_if; simpl; exact Hh.
    + simpl. discriminate.
  - case_if; [|assumption]. apply commit_above_zero.
    destruct g; simpl; try assumption.
    destruct Hs as (Hv & Hh & Ha). unfold handlePanGestureEnd. case_if.
    + split; [exact Hv|]. split; [exact Hh|]. simpl.
      intros a H. inversion H. simpl. split; [lra | discriminate].
    + assert (H1 : offset_above_zero
                       (closeSheet (props s) true (with_startedClosing false s))).
        { apply closeSheet_above_zero; [exact Hh|].
          split; [exact Hv|]. split; [exact Hh|]. exact Ha. }
        destruct H1 as (Hv1 & Hh1 & _).
        split; [exact Hv1|]. split; [exact Hh1|]. simpl.
        intros a H. inversion H. simpl. split; [exact Hh|].
        intros q c Hq. inversion Hq. subst. exact Hh.
  - case_if; [|assumption]. apply commit_above_zero. unfold onPress.
    apply closeSheet_above_zero; [apply Hs | exact Hs].
  - unfold animation_frame. case_eq (running (offset s)); [|intro; assumption].
    intros a Hr. destruct Hs as (Hv & Hh & Ha).
    split; [exact He|]. split; [exact Hh|]. simpl.
    intros a' H. inversion H; subst. apply Ha. exact Hr.
  - unfold animation_end. case_eq (running (offset s)); [|intro; assumption].
    intros a Hr. destruct Hs as (Hv & Hh & Ha).
    destruct (Ha a Hr) as [Ht Hcb].
    assert (H1 : offset_above_zero
                   (with_offset {| value := toValue_of a; running := None |} s)).
    { split; [exact Ht|]. split; [exact Hh|]. simpl. discriminate. }
    destruct (callback_of a) as [[q c]|] eqn:Hc; [|exact H1].
    apply commit_above_zero. apply closeSheet_above_zero; [|exact H1].
    apply (Hcb q c). reflexivity.
Qed.

Lemma mount_above_zero p : 0 <= height p -> offset_above_zero (mount p).
Proof.
  intro Hp. unfold mount. apply commit_above_zero.
  match goal with
  | |- offset_above_zero (useEffect_visible p ?s0) =>
      assert (H0 : offset_above_zero s0)
        by (split; [exact Hp|]; split; [exact Hp|]; simpl; discriminate)
  end.
  unfold useEffect_visible. case_if;
    [apply openSheet_above_zero | apply closeSheet_above_zero]; assumption.
Qed.

(** X8.  The sheet offset is never negative: when the heights of all renders
    are not negative and no animation frame goes below 0, the offset is at
    least 0 after every sequence of events. *)
Theorem offset_never_negative p es :
  0 <= height p ->
  Forall above_zero es ->
  0 <= value (offset (run (mount p) es)).
Proof.
  intros Hp Hes.
  assert (H : offset_above_zero (run (mount p) es)).
  { pose proof (mount_above_zero p Hp) as Hm. revert Hm.
    generalize (mount p). unfold run.
    induction Hes as [|e es He Hes IH]; intros s Hs; [exact Hs|].
    simpl. apply IH. apply step_above_zero; assumption. }
  apply H.
Qed.

(** X9.  The backdrop opacity [1 - offset / height], for a positive height:
    1 with the sheet fully open, 0 with the offset at the height, between 0
    and 1 in between, and negative, without clamping, when the sheet is
    dragged past the height. *)
Theorem backdrop_opacity_range p s :
  0 < height p ->
  (value (offset s) == 0 -> opacity p s == 1) /\
  (value (offset s) == height p -> opacity p s == 0) /\
  (0 <= value (offset s) <= height p -> 0 <= opacity p s <= 1) /\
  (height p < value (offset s) -> opacity p s < 0).
Proof.
  intro Hh. unfold opacity.
  set (v := value (offset s)). set (h := height p) in *.
  assert (Hne : ~ h == 0) by lra.
  repeat split.
  - intro E. rewrite E. field. exact Hne.
  - intro E. rewrite E. field. exact Hne.
  - assert (v / h <= 1); [|lra].
    apply Qle_shift_div_r; lra.
  - assert (0 <= v / h); [|lra].
    apply Qle_shift_div_l; lra.
  - intro Hv. assert (1 < v / h); [|lra].
    apply Qlt_shift_div_l; lra.
Qed.

(** X10.  In the mounted-on-demand mode a sheet whose [visible] prop is
    false is never rendered, whatever happened before: [isOpen] is false and
    the component returns an empty fragment, so the children are not
    mounted. *)
Theorem hidden_sheet_is_not_rendered p es :
  let s := run (mount p) es in
  alwaysMounted (props s) = false ->
  visible (props s) = false ->
  isOpen s = false /\
  forall (Style : Type) (v : PresentationProps Style),
    BottomSheet_return v s = Fragment [].
Proof.
  intros s Hm Hv.
  assert (Ho : isOpen s = false).
  { apply (reachable_closed_when_hidden s (run_reachable p es)); assumption. }
  split; [exact Ho|]. intros Style v.
  unfold BottomSheet_return. rewrite Ho, Hm. reflexivity.
Qed.

(** X11.  The first render.  The three gesture variables have their initial
    values and no callback has been invoked.  In the always-mounted mode the
    offset starts at the height, with a spring toward 0 when [visible] and
    toward the height otherwise, and the subtree is rendered; in the
    mounted-on-demand mode the offset is 0 whether [visible] or not, and the
    subtree is rendered exactly when [visible]. *)
Theorem mount_initial_state p :
  let s := mount p in
  props s = p /\ calls s = [] /\
  canClose s = true /\ startedClosing s = false /\ startY s = 0 /\
  if alwaysMounted p then
    value (offset s) = height p /\
    running (offset s) =
      Some (withSpring (if visible p then 0 else height p)
              {| damping := Some (customSheetDamping p ?? 400);
                 mass := Some (customSheetMass p ?? 0.4) |}) /\
    rendered s = true /\ scrollY s = Some 0
  else
    offset s = {| value := 0; running := None |} /\
    isOpen s = visible p /\ rendered s = visible p /\
    scrollY s = (if visible p then Some 0 else None).
Proof.
  destruct p as [[|] cb th mh cm cd [[|]|]]; repeat split; reflexivity.
Qed.

(** X12.  Every render by the parent with [visible] true runs the open path
    again.  The gesture variables are fresh, so a drag in progress loses its
    anchor.  In the always-mounted mode the content is scrolled back to the
    top and a spring toward 0 starts from the current offset; in the
    mounted-on-demand mode the offset is set to 0, a running animation is
    cancelled, and an open sheet keeps its scroll position. *)
Theorem parent_render_while_visible s p :
  visible p = true ->
  let s' := step s (Render p) in
  canClose s' = true /\ startedClosing s' = false /\ startY s' = 0 /\
  calls s' = calls s /\
  if alwaysMounted p then
    scrollY s' = Some 0 /\
    value (offset s') = value (offset s) /\
    running (offset s') =
      Some (withSpring 0
              {| damping := Some (customSheetDamping p ?? 400);
                 mass := Some (customSheetMass p ?? 0.4) |})
  else
    offset s' = {| value := 0; running := None |} /\
    isOpen s' = true /\
    scrollY s' = (if isOpen s then Some (scrollY s ?? 0) else Some 0).
Proof.
  intro Hv.
  destruct p as [vis cb th mh cm cd m]. simpl in Hv. subst vis.
  destruct s as [pr [|] o cc sc sy [y|] cs];
    destruct m as [[|]|]; repeat split; reflexivity.
Qed.

(** X13.  The children and the tap region are in the returned tree exactly
    once when the subtree is rendered ([isOpen], or the always-mounted mode),
    and not at all otherwise, whatever the presentation props. *)
Theorem children_rendered_once {Style : Type} (v : PresentationProps Style) s :
  occurrences is_children (BottomSheet_return v s) =
    (if rendered s then 1 else 0)%nat /\
  occurrences is_touchable (BottomSheet_return v s) =
    (if rendered s then 1 else 0)%nat.
Proof.
  unfold BottomSheet_return, sheet_content, rendered.
  destruct (isOpen s || alwaysMounted (props s));
    destruct (isTrue (hideSheetBackgroundContainer v));
    destruct (isTrue (hideHandle v)); split; reflexivity.
Qed.

(** X14.  The container is in the returned tree exactly when the subtree is
    rendered and [hideSheetBackgroundContainer] is not [true]; the handle
    exactly when, in addition, [hideHandle] is not [true].  Hiding the
    container hides the handle too. *)
Theorem container_and_handle_visibility {Style : Type}
    (v : PresentationProps Style) s :
  occurrences is_container (BottomSheet_return v s) =
    (if rendered s && negb (isTrue (hideSheetBackgroundContainer v))
     then 1 else 0)%nat /\
  occurrences is_handle (BottomSheet_return v s) =
    (if rendered s && negb (isTrue (hideSheetBackgroundContainer v))
        && negb (isTrue (hideHandle v))
     then 1 else 0)%nat.
Proof.
  unfold BottomSheet_return, sheet_content, rendered.
  destruct (isOpen s || alwaysMounted (props s));
    destruct (isTrue (hideSheetBackgroundContainer v));
    destruct (isTrue (hideHandle v)); split; reflexivity.
Qed.


End BottomSheet.

(** ** The claims on a window 800px high *)

(** Witness of C1: a scroll to 3px with the sheet dragged 30px down grants
    [canClose] in the always-mounted mode; in the mounted-on-demand mode the
    same scroll with the offset at 0 grants it, and a scroll to 100px
    withdraws it. *)
Lemma onScroll_canClose_by_mode_witness :
  let dragged s := with_offset {| value := 30; running := None |} s in
  canClose (onScroll legacy_visible 3
              (with_canClose false (dragged (mount 800 legacy_visible)))) = true /\
  canClose (onScroll default_visible 3
              (with_canClose false (mount 800 default_visible))) = true /\
  canClose (onScroll default_visible 100 (mount 800 default_visible)) = false.
Proof.
  intro dragged. split; [|split].
  - apply (onScroll_canClose_by_mode legacy_visible 3
             (with_canClose false (dragged (mount 800 legacy_visible)))).
    apply Qle_bool_imp_le. reflexivity.
  - apply (onScroll_canClose_by_mode default_visible 3
             (with_canClose false (mount 800 default_visible))).
    split; apply Qle_bool_imp_le; reflexivity.
  - apply (onScroll_canClose_by_mode default_visible 100
             (mount 800 default_visible)).
    + intros [H _]. apply Qle_bool_iff in H. discriminate H.
    + reflexivity.
Defined.

(** Counterexample to C1 as stated.  In each mode a 30px drag is released,
    the content is scrolled to 100px and then back to the top while the
    offset is still 30.  Always-mounted mode: the scroll to the top grants
    [canClose], where the specified arbitration refuses it.  Mounted-on-demand
    mode: the scroll to the top leaves [canClose] false, where the specified
    arbitration grants it. *)
Lemma onScroll_as_specified_counterexample :
  let sA := run 800 (mount 800 legacy_visible)
              [AnimationEnd; GestureEvent 10; GestureEvent 40;
               HandlerStateChange END; Scroll 100] in
  let sB := run 800 (mount 800 default_visible)
              [GestureEvent 10; GestureEvent 40; HandlerStateChange END;
               Scroll 100] in
  (canClose (onScroll legacy_visible 0 sA) = true /\
   value (offset sA) = 30 /\ canClose sA = false /\
   canClose (onScroll_as_specified legacy_visible 0 sA) = false) /\
  (canClose (onScroll default_visible 0 sB) = false /\
   value (offset sB) = 30 /\ startedClosing sB = false /\
   canClose (onScroll_as_specified default_visible 0 sB) = true).
Proof. vm_compute. repeat split. Qed.

(** Witness of C2 *)
Lemma default_spring_parameters_witness :
  customSheetDamping legacy_visible = None /\
  customSheetDamping default_visible = None /\
  running (offset (openSheet legacy_visible false (mount 800 legacy_hidden))) =
    Some (withSpring 0 {| damping := Some 400; mass := Some 0.4 |}) /\
  sheet_entering default_visible =
    Some {| springMass := 0.4; springDamping := 100 |}.
Proof.
  split; [reflexivity|]. split; [reflexivity|]. split.
  - apply (default_spring_parameters 800 legacy_visible false
             (mount 800 legacy_hidden)). reflexivity.
  - apply (default_spring_parameters 800 default_visible false
             (mount 800 default_visible)). reflexivity.
Defined.

(** Counterexample to C2 as stated: without [customSheetDamping] the spring
    that opens the sheet in the always-mounted mode has damping 400, not the
    specified 100, and the entering spring of the mounted-on-demand mode has
    damping 100, not the specified 400. *)
Lemma default_damping_as_specified_counterexample :
  running (offset (openSheet legacy_visible false (mount 800 legacy_hidden))) <>
    Some (withSpring 0
            {| damping := Some (default_damping_as_specified legacy_visible);
               mass := Some 0.4 |}) /\
  sheet_entering default_visible <>
    Some {| springMass := 0.4;
            springDamping := default_damping_as_specified default_visible |}.
Proof. split; vm_compute; intro H; discriminate H. Qed.

(** Witness of C3: an always-mounted sheet is scrolled to 120px, hidden and
    shown again. *)
Lemma open_resets_scroll_position_witness :
  let s := run 800 (mount 800 legacy_visible) [Scroll 120; Render legacy_hidden] in
  scrollY s = Some 120 /\
  visible (props s) = false /\
  scrollY (step 800 s (Render legacy_visible)) = Some 0.
Proof.
  intro s. split; [reflexivity|]. split; [reflexivity|].
  apply (open_resets_scroll_position 800 legacy_visible
           [Scroll 120; Render legacy_hidden] legacy_visible);
    reflexivity.
Defined.

(** Counterexample to C4 as stated: after the content was scrolled to 100px
    [canClose] is false, and the begin of the next gesture leaves it false;
    after a pan-move that was not followed by an end, the begin of the next
    gesture leaves [startedClosing] true. *)
Lemma handlePanGestureStart_as_specified_counterexample :
  let s := run 800 (mount 800 default_visible) [Scroll 100] in
  let s' := run 800 (mount 800 default_visible)
              [GestureEvent 10; HandlerStateChange CANCELLED] in
  (canClose (step 800 s (HandlerStateChange BEGAN)) = false /\
   canClose (handlePanGestureStart_as_specified s) = true) /\
  (startedClosing (step 800 s' (HandlerStateChange BEGAN)) = true /\
   startedClosing (handlePanGestureStart_as_specified s') = false).
Proof. vm_compute. repeat split. Qed.

(** Witness of C5: a drag of 80px is released in each mode. *)
Lemma release_past_threshold_closes_witness :
  let drag := [GestureEvent 10; GestureEvent 90] in
  let release := [HandlerStateChange END; AnimationEnd; AnimationEnd] in
  let sA := run 800 (mount 800 legacy_visible) (AnimationEnd :: drag) in
  let sB := run 800 (mount 800 default_visible) drag in
  (value (offset sA) = 80 /\ calls (run 800 sA release) = [false] /\
   offset (run 800 sA release) = {| value := 800; running := None |}) /\
  (value (offset sB) = 80 /\ calls (run 800 sB release) = [false] /\
   isOpen (run 800 sB release) = false).
Proof.
  intros drag release sA sB. split.
  - split; [reflexivity|].
    assert (Hth : swipeDownThreshold (props sA) ?? 50 <= value (offset sA))
      by (apply Qle_bool_imp_le; reflexivity).
    destruct (release_past_threshold_closes 800 sA eq_refl eq_refl Hth)
      as (_ & _ & Hc & Ho).
    split; [exact Hc | exact Ho].
  - split; [reflexivity|].
    assert (Hth : swipeDownThreshold (props sB) ?? 50 <= value (offset sB))
      by (apply Qle_bool_imp_le; reflexivity).
    destruct (release_past_threshold_closes 800 sB eq_refl eq_refl Hth)
      as (_ & _ & Hc & Ho & _).
    split; [exact Hc | exact Ho].
Defined.

(** Witness of C6: a drag of 30px is released. *)
Lemma release_below_threshold_snaps_back_witness :
  let s := run 800 (mount 800 default_visible)
             [GestureEvent 10; GestureEvent 40] in
  let s2 := run 800 s [HandlerStateChange END; AnimationEnd] in
  value (offset s) = 30 /\
  offset s2 = {| value := 0; running := None |} /\
  canClose s2 = true /\ calls s2 = [].
Proof.
  intros s s2. split; [reflexivity|].
  assert (Hth : value (offset s) < swipeDownThreshold (props s) ?? 50)
    by reflexivity.
  destruct (release_below_threshold_snaps_back 800 s eq_refl Hth)
    as (_ & _ & _ & Ho & Hc & Hl & _).
  split; [exact Ho|]. split; [exact Hc | exact Hl].
Defined.

(** Witness of C10: a drag of 80px is released in the mounted-on-demand
    mode. *)
Lemma on_demand_close_rests_at_zero_witness :
  let s := run 800 (mount 800 default_visible)
             [GestureEvent 10; GestureEvent 90] in
  alwaysMounted default_visible = false /\
  value (offset s) = 80 /\
  offset (closeSheet 800 default_visible true s) =
    {| value := 0; running := None |} /\
  offset (run 800 s [HandlerStateChange END; AnimationEnd]) =
    {| value := 0; running := None |}.
Proof.
  intro s. split; [reflexivity|]. split; [reflexivity|].
  destruct (on_demand_close_rests_at_zero 800 default_visible eq_refl)
    as [Hclose Hswipe].
  split.
  - apply Hclose.
  - assert (Hth : swipeDownThreshold default_visible ?? 50 <= value (offset s))
      by (apply Qle_bool_imp_le; reflexivity).
    apply (Hswipe s eq_refl eq_refl Hth).
Defined.

(** ** The further properties on a window 800px high *)

(** Witness of X1: a tap on a sheet that was just opened. *)
Lemma press_closes_and_notifies_witness :
  let s := mount 800 default_visible in
  rendered s = true /\
  calls (step 800 s Press) = [false] /\
  isOpen (step 800 s Press) = false.
Proof.
  intro s. split; [reflexivity|].
  destruct (press_closes_and_notifies 800 s eq_refl) as (Hc & _ & Ho & _).
  split; [exact Hc | exact Ho].
Defined.

(** Witness of X2: a swipe-close and a tap without a callback. *)
Lemma missing_callback_is_never_invoked_witness :
  let es := [GestureEvent 10; GestureEvent 90; HandlerStateChange END;
             Render visible_without_callback; Press] in
  onVisibilityChange visible_without_callback = None /\
  Forall without_callback es /\
  calls (run 800 (mount 800 visible_without_callback) es) = [].
Proof.
  intro es.
  assert (Hes : Forall without_callback es)
    by (repeat constructor).
  split; [reflexivity|]. split; [exact Hes|].
  apply (missing_callback_is_never_invoked 800 visible_without_callback es
           eq_refl Hes).
Defined.

(** Witness of X3: the content is scrolled to 100px, then dragged. *)
Lemma scrolled_content_blocks_drag_witness :
  let s := run 800 (mount 800 legacy_visible) [AnimationEnd] in
  let s' := run 800 s (Scroll 100 :: map GestureEvent [10; 50]) in
  rendered s = true /\ 5 < 100 /\ alwaysMounted (props s) = true /\
  canClose s' = false /\ offset s' = offset s.
Proof.
  intros s s'. split; [reflexivity|]. split; [reflexivity|].
  split; [reflexivity|].
  destruct (scrolled_content_blocks_drag 800 s 100 [10; 50] eq_refl eq_refl
              (or_introl eq_refl)) as (Hc & Ho & _).
  split; [exact Hc | exact Ho].
Defined.

(** Witness of X4: a drag starts, then the content scrolls to 100px. *)
Lemma close_drag_latch_witness :
  let s := step 800 (mount 800 default_visible) (GestureEvent 10) in
  let es := [Scroll 100; GestureEvent 40; HandlerStateChange BEGAN] in
  canClose s = true /\ startedClosing s = true /\
  Forall inside_gesture es /\
  canClose (run 800 s es) = true.
Proof.
  intros s es.
  assert (Hes : Forall inside_gesture es).
  { repeat constructor. intro H. discriminate H. }
  split; [reflexivity|]. split; [reflexivity|]. split; [exact Hes|].
  apply (close_drag_latch 800 s es eq_refl eq_refl eq_refl Hes).
Defined.

(** Witness of X5: pan-moves at 10, 40 and 40 on an open sheet. *)
Lemma pan_moves_add_displacement_witness :
  let s := mount 800 default_visible in
  let s3 := handlePanGestureEvent 40
              (handlePanGestureEvent 40 (handlePanGestureEvent 10 s)) in
  canClose s = true /\ startY s == 0 /\ 0 <= value (offset s) /\
  value (offset s3) == value (offset s) + 2 * (40 - 10).
Proof.
  intros s s3.
  assert (Hz : startY s == 0) by reflexivity.
  assert (Hv : 0 <= value (offset s)) by (apply Qle_bool_imp_le; reflexivity).
  assert (Hn : ~ 10 == 0) by (intro H; discriminate H).
  assert (Hle : 10 <= 40) by (apply Qle_bool_imp_le; reflexivity).
  split; [reflexivity|]. split; [exact Hz|]. split; [exact Hv|].
  apply (pan_moves_add_displacement 10 40 s eq_refl Hz Hn Hv Hle).
Defined.

(** Witness of X6: pan-moves at 0 and 25 on an open sheet. *)
Lemma pan_move_at_zero_leaves_anchor_unset_witness :
  let s := mount 800 default_visible in
  let s2 := handlePanGestureEvent 25 (handlePanGestureEvent 0 s) in
  canClose s = true /\ startY s == 0 /\ 0 <= value (offset s) /\
  startY s2 = 25 /\ value (offset s2) == value (offset s).
Proof.
  intros s s2.
  assert (Hz : startY s == 0) by reflexivity.
  assert (Hv : 0 <= value (offset s)) by (apply Qle_bool_imp_le; reflexivity).
  split; [reflexivity|]. split; [exact Hz|]. split; [exact Hv|].
  destruct (pan_move_at_zero_leaves_anchor_unset 25 s eq_refl Hz Hv)
    as (_ & Hs & Ho).
  split; [exact Hs | exact Ho].
Defined.

(** Witness of X8: an upward drag and a snap-back in flight. *)
Lemma offset_never_negative_witness :
  let es := [GestureEvent 50; GestureEvent 20; HandlerStateChange END;
             AnimationFrame 3; AnimationEnd] in
  0 <= height 800 default_visible /\
  Forall (above_zero 800) es /\
  0 <= value (offset (run 800 (mount 800 default_visible) es)).
Proof.
  intro es.
  assert (Hh : 0 <= height 800 default_visible)
    by (apply Qle_bool_imp_le; reflexivity).
  assert (Hes : Forall (above_zero 800) es).
  { repeat constructor. apply Qle_bool_imp_le. reflexivity. }
  split; [exact Hh|]. split; [exact Hes|].
  apply (offset_never_negative 800 default_visible es Hh Hes).
Defined.

(** Witness of X9: the sheet is dragged 200px down. *)
Lemma backdrop_opacity_range_witness :
  let s := run 800 (mount 800 default_visible)
             [GestureEvent 10; GestureEvent 210] in
  0 < height 800 default_visible /\
  0 <= value (offset s) <= height 800 default_visible /\
  0 <= opacity 800 default_visible s <= 1.
Proof.
  intro s.
  assert (Hh : 0 < height 800 default_visible) by reflexivity.
  assert (Hv : 0 <= value (offset s) <= height 800 default_visible)
    by (split; apply Qle_bool_imp_le; reflexivity).
  split; [exact Hh|]. split; [exact Hv|].
  destruct (backdrop_opacity_range 800 default_visible s Hh)
    as (_ & _ & Hr & _).
  exact (Hr Hv).
Defined.

(** Witness of X10: an open sheet is hidden by its parent. *)
Lemma hidden_sheet_is_not_rendered_witness :
  let s := run 800 (mount 800 default_visible)
             [Scroll 30; Render default_hidden] in
  alwaysMounted (props s) = false /\ visible (props s) = false /\
  isOpen s = false.
Proof.
  intro s. split; [reflexivity|]. split; [reflexivity|].
  apply (hidden_sheet_is_not_rendered 800 default_visible
           [Scroll 30; Render default_hidden] eq_refl eq_refl).
Defined.

(** Witness of X12: the parent renders again while the content of an
    always-mounted sheet is scrolled to 120px. *)
Lemma parent_render_while_visible_witness :
  let s := run 800 (mount 800 legacy_visible) [AnimationEnd; Scroll 120] in
  visible legacy_visible = true /\
  scrollY s = Some 120 /\
  scrollY (step 800 s (Render legacy_visible)) = Some 0.
Proof.
  intro s. split; [reflexivity|]. split; [reflexivity|].
  destruct (parent_render_while_visible 800 s legacy_visible eq_refl)
    as (_ & _ & _ & _ & Hy & _).
  exact Hy.
Defined.
